(** * autofactory: class-hierarchy resolvers

    A shallow embedding of [modelBase.py] and [versionedBase.py].

    Both files resolve a label against a hierarchy of Python classes.  A class
    is embedded as a record carrying its [__name__], the value that the
    attribute lookup on the class yields ([modelStrings] or [versionString]),
    and the list [cls.__subclasses__()], which Python keeps in declaration
    order.  A call either returns a value or raises; this is the [outcome]
    type below.  The [print] calls of the source write to the console only
    and are left out.  Where an entry point is called on an instance, the
    source first replaces it by its class ([inspect.isclass]); the embedding
    starts from that class. *)

From Stdlib Require Import List String Bool Arith Lia.
Import ListNotations.
Open Scope string_scope.
Open Scope list_scope.

Set Implicit Arguments.
Set Warnings "-register-all".

(** ** Outcomes of a Python call *)

(** The two exception classes the source raises.  [TypeError] is also what
    [x in None] raises. *)
Inductive exn : Type :=
| NotImplementedError
| TypeError.

Inductive outcome (A : Type) : Type :=
| Return (a : A)
| Raise (e : exn).

Arguments Return {A} a.
Arguments Raise {A} e.

Definition bind {A B : Type} (m : outcome A) (k : A -> outcome B) : outcome B :=
  match m with
  | Return a => k a
  | Raise e => Raise e
  end.

Notation "x <- m ;; k" := (bind m (fun x => k))
  (at level 61, m at next level, right associativity).

(** The names the specification gives to the two failures. *)
Definition NotFound : exn := NotImplementedError.
Definition AmbiguousHierarchy : exn := TypeError.

(** Python's [==] on values that are either [None] or a string. *)
Definition py_eq (a b : option string) : bool :=
  match a, b with
  | None, None => true
  | Some x, Some y => String.eqb x y
  | _, _ => false
  end.

(** * modelBase.py *)

Module ModelBase.

(** A class below [ModelBase].  [modelStrings] is what [cls.modelStrings]
    evaluates to: the list the class (or its nearest base) assigns, or
    [None], the value [ModelBase] itself carries. *)
Inductive class : Type :=
  Class { name : string;
          modelStrings : option (list string);
          subclasses : list class }.

(** [soughtModel in searchMe.modelStrings] *)
Definition contains (soughtModel : string) (strings : option (list string))
  : outcome bool :=
  match strings with
  | None => Raise TypeError
  | Some l => Return (existsb (String.eqb soughtModel) l)
  end.

Section Traverse.

Variable soughtModel : string.

(** The [for sub in searchMe.__subclasses__()] loop of [traverse], with the
    recursive call as [body].  A class object is truthy, so [if possible]
    tests for [None]. *)
Definition for_sub (body : class -> outcome (option class))
  : list class -> outcome (option class) :=
  fix loop (subs : list class) : outcome (option class) :=
    match subs with
    | [] => Return None
    | sub :: rest =>
        possible <- body sub ;;
        match possible with
        | Some found => Return (Some found)
        | None => loop rest
        end
    end.

Fixpoint traverse (searchMe : class) : outcome (option class) :=
  match searchMe with
  | Class _ strings subs =>
      isin <- contains soughtModel strings ;;
      if (isin : bool) then Return (Some searchMe)
      else for_sub traverse subs
  end.

End Traverse.

Definition findModel (cls : class) (observedModel : string)
  (returnBase returnLatest : bool) : outcome class :=
  isin <- contains observedModel (modelStrings cls) ;;
  if (isin : bool) then Return cls
  else
    match subclasses cls with
    | _ :: _ =>
        (* len(cls.__subclasses__()) >= 1 *)
        possible <- traverse observedModel cls ;;
        match possible with
        | Some found => Return found
        | None =>
            if returnBase then Return cls
            else Raise NotImplementedError
        end
    | [] =>
        (* cls.__subclasses__() == [] *)
        if returnBase || returnLatest then Return cls
        else Raise NotImplementedError
    end.

(** *** Vocabulary for the properties of [findModel] *)

(** The subtree below a class, itself included, in pre-order: the class, then
    the subtree of each subclass in declaration order. *)
Fixpoint preorder (c : class) : list class :=
  match c with
  | Class _ _ subs => c :: flat_map preorder subs
  end.

(** The label set of [c] contains [l]. *)
Definition has_label (l : string) (c : class) : bool :=
  match modelStrings c with
  | Some strings => existsb (String.eqb l) strings
  | None => false
  end.

(** Every class of the subtree carries a list of model strings. *)
Definition labelled (c : class) : bool :=
  forallb (fun n => match modelStrings n with Some _ => true | None => false end)
          (preorder c).

(** What a left-to-right scan of a list of classes meets first: a class
    holding the label, or a class on which the membership test raises. *)
Fixpoint first_hit (l : string) (cs : list class) : outcome (option class) :=
  match cs with
  | [] => Return None
  | c :: rest =>
      isin <- contains l (modelStrings c) ;;
      if (isin : bool) then Return (Some c) else first_hit l rest
  end.

(** Induction over a class and all its subclasses. *)
Section ClassInduction.

Variable P : class -> Prop.
Hypothesis step :
  forall n strings subs, Forall P subs -> P (Class n strings subs).

Fixpoint class_subtree_ind (c : class) : P c :=
  match c with
  | Class n strings subs =>
      step n strings
        ((fix all (l : list class) : Forall P l :=
            match l with
            | [] => Forall_nil P
            | x :: r => Forall_cons x (class_subtree_ind x) (all r)
            end) subs)
  end.

End ClassInduction.

(** The hierarchy of the unit tests: [ModelA] <- [ModelB] <- [ModelC]. *)
Definition ModelC : class := Class "ModelC" (Some ["C"; "c"]) [].
Definition ModelB : class := Class "ModelB" (Some ["B"; "b"]) [ModelC].
Definition ModelA : class := Class "ModelA" (Some ["A"; "a"]) [ModelB].

(** The scenario of the specification: a root with two leaves that share a
    label. *)
Definition M1 : class := Class "M1" (Some ["x"]) [].
Definition M2 : class := Class "M2" (Some ["x"]) [].
Definition M : class := Class "M" (Some ["m"]) [M1; M2].

(** A hierarchy in which one class never received model strings. *)
Definition Plain : class := Class "Plain" None [].
Definition Mixed : class := Class "Mixed" (Some ["r"]) [Plain; M1].

(** A hierarchy in which "k" is held deep below the first subclass and by the
    second subclass itself. *)
Definition Deep : class := Class "Deep" (Some ["k"]) [].
Definition Left : class := Class "Left" (Some ["l"]) [Deep].
Definition Right : class := Class "Right" (Some ["k"]) [].
Definition Wide : class := Class "Wide" (Some ["w"]) [Left; Right].

End ModelBase.

(** * versionedBase.py *)

Module VersionedBase.

(** A class at or below [VersionedBase].  [versionString] is what
    [cls.versionString] evaluates to: the string the class (or its nearest
    base) assigns, or [None], the value [VersionedBase] itself carries. *)
Inductive class : Type :=
  Class { name : string;
          versionString : option string;
          subclasses : list class }.

(** ** [newFromVersion] *)

Section NewFromVersion.

(** The positional and keyword arguments handed on to the constructor. *)
Variable Args : Type.

(** Calling a class on the arguments: the instance records the class that
    was called and the arguments it was called with. *)
Inductive instance : Type :=
  New (cls : class) (args : Args).

Variable args : Args.
Variable version : option string.
Variables returnDefault returnLast : bool.

(** The [while scan:] loop, entered with [scan] bound to the only subclass
    of [cls].  A class object is truthy, so the loop is left by a [return]
    or a [raise] only. *)
Fixpoint scan_loop (cls scan : class) : outcome instance :=
  match scan with
  | Class _ scanVersion subs =>
      if py_eq scanVersion version then Return (New scan args)
      else
        match subs with
        | [next] =>
            (* len(scan.__subclasses__()) == 1 *)
            scan_loop cls next
        | _ =>
            if returnDefault then Return (New cls args)
            else if returnLast then Return (New scan args)
            else Raise NotImplementedError
        end
  end.

End NewFromVersion.

Arguments New {Args} cls args.

Definition newFromVersion {Args : Type} (cls : class) (args : Args)
  (version : option string) (returnDefault returnLast : bool)
  : outcome (instance Args) :=
  if py_eq (versionString cls) version then Return (New cls args)
  else
    match subclasses cls with
    | [sub] =>
        (* len(cls.__subclasses__()) == 1 *)
        scan_loop args version returnDefault returnLast cls sub
    | [] =>
        (* cls.__subclasses__() == [] *)
        if returnDefault then Return (New cls args)
        else if returnLast then Return (New cls args)
        else Raise NotImplementedError
    | _ :: _ :: _ => Raise TypeError
    end.

(** The value of the keyword parameter [version] when the caller leaves it
    out. *)
Definition version_default : option string := None.

(** ** [findVersion] *)

Section FindVersion.

Variable returnLatest : bool.

Fixpoint traverse (searchMe : class) (soughtVersion : option string)
  : option class :=
  match searchMe with
  | Class _ searchVersion subs =>
      if py_eq soughtVersion searchVersion then Some searchMe
      else
        match subs with
        | sub :: _ =>
            (* len(searchMe.__subclasses__()) > 0 *)
            traverse sub soughtVersion
        | [] => if returnLatest then Some searchMe else None
        end
  end.

End FindVersion.

Definition findVersion (cls : class) (version : option string)
  (returnBase returnLatest : bool) : outcome class :=
  if py_eq version (versionString cls) then Return cls
  else
    match subclasses cls with
    | _ :: _ =>
        (* len(cls.__subclasses__()) > 0 *)
        match traverse returnLatest cls version with
        | Some possible => Return possible
        | None =>
            if returnBase then Return cls
            else Raise NotImplementedError
        end
    | [] =>
        if returnBase || returnLatest then Return cls
        else Raise NotImplementedError
    end.

(** ** [findPreviousVersion] *)

(** A class together with its [__base__] chain: the classes reached by
    following [__base__] upward, nearest first, for as long as they have a
    [versionString] attribute.  The chain is empty when [cls.__base__] has no
    such attribute, as is the case for [VersionedBase], whose base is
    [object]. *)
Record declared : Type :=
  Declared { this : class; bases : list class }.

(** The subclasses of a declared class, each with its own chain. *)
Definition declared_subclasses (d : declared) : list declared :=
  map (fun sub => Declared sub (this d :: bases d)) (subclasses (this d)).

(** [climb base soughtVersion], where [above] is the chain of [base]. *)
Fixpoint climb (base : class) (above : list class)
  (soughtVersion : option string) : option class :=
  if py_eq (versionString base) soughtVersion then Some base
  else
    match above with
    | parent :: above' =>
        (* hasattr(parent, "versionString") *)
        climb parent above' soughtVersion
    | [] => None
    end.

Definition findPreviousVersion (cls : declared) (previous : option string)
  : outcome (option class) :=
  match bases cls with
  | base :: above =>
      (* hasattr(cls.__base__, "versionString") *)
      Return (climb base above previous)
  | [] => Return None
  end.

(** *** Vocabulary for the properties of the version resolvers *)

(** The subtree below a class, itself included, in pre-order. *)
Fixpoint preorder (c : class) : list class :=
  match c with
  | Class _ _ subs => c :: flat_map preorder subs
  end.

(** The path that follows the first subclass at every class. *)
Fixpoint first_child_path (c : class) : list class :=
  match c with
  | Class _ _ subs =>
      c :: match subs with
           | sub :: _ => first_child_path sub
           | [] => []
           end
  end.

(** The class at which the first-subclass path ends. *)
Definition last_reached (c : class) : class :=
  last (first_child_path c) c.

(** A lineage: no class of the subtree has more than one subclass. *)
Definition linear (c : class) : bool :=
  forallb (fun n => Nat.leb (List.length (subclasses n)) 1) (preorder c).

(** The class at the bottom of a lineage. *)
Definition deepest (c : class) : class :=
  last (preorder c) c.

(** [version] is the version of no class in [cs]. *)
Definition absent (version : option string) (cs : list class) : Prop :=
  forall n, In n cs -> versionString n <> version.

(** The path that goes on for as long as a class has exactly one subclass:
    the classes the walk of [newFromVersion] looks at. *)
Fixpoint only_child_path (c : class) : list class :=
  match c with
  | Class _ _ subs =>
      c :: match subs with
           | [next] => only_child_path next
           | _ => []
           end
  end.

(** The class [n] carries [version]. *)
Definition carries (version : option string) (n : class) : bool :=
  py_eq (versionString n) version.

Section ClassInduction.

Variable P : class -> Prop.
Hypothesis step :
  forall n v subs, Forall P subs -> P (Class n v subs).

Fixpoint class_subtree_ind (c : class) : P c :=
  match c with
  | Class n v subs =>
      step n v
        ((fix all (l : list class) : Forall P l :=
            match l with
            | [] => Forall_nil P
            | x :: r => Forall_cons x (class_subtree_ind x) (all r)
            end) subs)
  end.

End ClassInduction.

(** *** Hierarchies used as examples *)

(** The lineage of the unit tests, [VersionedBase] <- [Ver1] <- [Ver2] <-
    [Ver3] (the lineage A, B, C of the specification, versions "1.0", "2.0",
    "3.0"). *)
Definition Ver3 : class := Class "Ver3" (Some "3.0") [].
Definition Ver2 : class := Class "Ver2" (Some "2.0") [Ver3].
Definition Ver1 : class := Class "Ver1" (Some "1.0") [Ver2].
Definition Base : class := Class "VersionedBase" None [Ver1].

(** The same classes with their [__base__] chains. *)
Definition first_declared (d : declared) : declared :=
  hd d (declared_subclasses d).

Definition dBase : declared := Declared Base [].
Definition dVer1 : declared := first_declared dBase.
Definition dVer2 : declared := first_declared dVer1.
Definition dVer3 : declared := first_declared dVer2.

(** A chain whose second class forks. *)
Definition Fork3a : class := Class "Fork3a" (Some "3.0") [].
Definition Fork3b : class := Class "Fork3b" (Some "3.1") [].
Definition Fork2 : class := Class "Fork2" (Some "2.0") [Fork3a; Fork3b].
Definition Fork1 : class := Class "Fork1" (Some "1.0") [Fork2].

(** A tree whose first subclass is a leaf and whose second subclass goes
    deeper. *)
Definition Leaf2a : class := Class "Leaf2a" (Some "2.0") [].
Definition Deep3 : class := Class "Deep3" (Some "3.0") [].
Definition Mid2b : class := Class "Mid2b" (Some "2.5") [Deep3].
Definition Top1 : class := Class "Top1" (Some "1.0") [Leaf2a; Mid2b].

End VersionedBase.

(** * Properties *)

Unset Implicit Arguments.

Lemma py_eq_spec (a b : option string) : reflect (a = b) (py_eq a b).
Proof.
  destruct a as [x|], b as [y|]; simpl; try (constructor; congruence).
  destruct (String.eqb_spec x y); constructor; congruence.
Qed.

Lemma py_eq_true (a b : option string) : py_eq a b = true <-> a = b.
Proof. destruct (py_eq_spec a b); split; congruence. Qed.

Lemma py_eq_false (a b : option string) : py_eq a b = false <-> a <> b.
Proof. destruct (py_eq_spec a b); split; congruence. Qed.

Lemma py_eq_sym (a b : option string) : py_eq a b = py_eq b a.
Proof.
  destruct (py_eq_spec a b), (py_eq_spec b a); congruence.
Qed.


Module ModelBaseProps.
Import ModelBase.

Lemma first_hit_app (l : string) (xs ys : list class) :
  first_hit l (xs ++ ys) =
  (r <- first_hit l xs ;;
   match r with
   | Some found => Return (Some found)
   | None => first_hit l ys
   end).
Proof.
  induction xs as [|x xs IH]; simpl; [reflexivity|].
  destruct (contains l (modelStrings x)) as [[|]|e]; simpl; auto.
Qed.

(** [traverse] is a left-to-right scan of the pre-order listing. *)
Lemma traverse_preorder (l : string) (c : class) :
  traverse l c = first_hit l (preorder c).
Proof.
  induction c as [n strings subs IH] using class_subtree_ind.
  simpl. destruct (contains l strings) as [[|]|e]; simpl; try reflexivity.
  induction IH as [|x xs Hx _ IHxs]; simpl; [reflexivity|].
  rewrite first_hit_app, Hx.
  destruct (first_hit l (preorder x)) as [[found|]|e]; simpl; auto.
Qed.

Lemma first_hit_labelled (l : string) (cs : list class) :
  forallb (fun n => match modelStrings n with Some _ => true | None => false end)
          cs = true ->
  first_hit l cs = Return (find (has_label l) cs).
Proof.
  induction cs as [|c cs IH]; simpl; [reflexivity|].
  intros H. apply andb_prop in H. destruct H as [Hc Hcs].
  unfold has_label. destruct (modelStrings c) as [strings|]; [|discriminate].
  simpl. destruct (existsb (String.eqb l) strings); auto.
Qed.

Lemma preorder_head (c : class) :
  preorder c = c :: flat_map preorder (subclasses c).
Proof. destruct c; reflexivity. Qed.

(** The result of [findModel] when the subtree holds the label. *)
Lemma findModel_found (start : class) (l : string) (rb rl : bool) (n : class) :
  labelled start = true ->
  find (has_label l) (preorder start) = Some n ->
  findModel start l rb rl = Return n.
Proof.
  intros Hlab Hfind. unfold findModel.
  pose proof (traverse_preorder l start) as Htr.
  rewrite (first_hit_labelled l _ Hlab), Hfind in Htr.
  unfold labelled in Hlab. rewrite preorder_head in Hlab, Hfind.
  simpl in Hlab, Hfind. apply andb_prop in Hlab. destruct Hlab as [Hs _].
  unfold has_label in Hfind.
  destruct (modelStrings start) as [strings|]; [|discriminate]. simpl.
  destruct (existsb (String.eqb l) strings); [congruence|].
  destruct (subclasses start); [discriminate|].
  rewrite Htr. reflexivity.
Qed.

(** The result of [findModel] when the subtree does not hold the label. *)
Lemma findModel_missing (start : class) (l : string) (rb rl : bool) :
  labelled start = true ->
  find (has_label l) (preorder start) = None ->
  findModel start l rb rl =
  match subclasses start with
  | _ :: _ => if rb then Return start else Raise NotFound
  | [] => if rb || rl then Return start else Raise NotFound
  end.
Proof.
  intros Hlab Hfind. unfold findModel.
  pose proof (traverse_preorder l start) as Htr.
  rewrite (first_hit_labelled l _ Hlab), Hfind in Htr.
  unfold labelled in Hlab. rewrite preorder_head in Hlab, Hfind.
  simpl in Hlab, Hfind. apply andb_prop in Hlab. destruct Hlab as [Hs _].
  unfold has_label in Hfind.
  destruct (modelStrings start) as [strings|]; [|discriminate]. simpl.
  destruct (existsb (String.eqb l) strings); [discriminate|].
  destruct (subclasses start); [reflexivity|].
  rewrite Htr. reflexivity.
Qed.

Lemma find_none_iff (l : string) (cs : list class) :
  find (has_label l) cs = None <->
  (forall n, In n cs -> has_label l n = false).
Proof.
  split.
  - intros H n Hn. exact (find_none _ _ H n Hn).
  - induction cs as [|c cs IH]; simpl; [reflexivity|].
    intros H. rewrite (H c (or_introl eq_refl)). apply IH.
    intros n Hn. apply H. right. exact Hn.
Qed.

Lemma start_in_preorder (c : class) : In c (preorder c).
Proof. rewrite preorder_head. left. reflexivity. Qed.

(** C3: on a hierarchy whose classes all carry model strings, [findModel]
    returns a class holding the label exactly when the subtree of [start]
    (inclusive) has one, and the class it then returns is the first such class
    of the pre-order listing, subclasses taken in declaration order. *)
Theorem findModel_first_in_preorder
  (start : class) (l : string) (rb rl : bool) :
  labelled start = true ->
  ((exists n, findModel start l rb rl = Return n /\ has_label l n = true) <->
   (exists n, In n (preorder start) /\ has_label l n = true))
  /\
  (forall n, find (has_label l) (preorder start) = Some n ->
             findModel start l rb rl = Return n).
Proof.
  intros Hlab. split.
  - destruct (find (has_label l) (preorder start)) as [m|] eqn:Hfind.
    + pose proof (find_some _ _ Hfind) as [Hin Hm].
      rewrite (findModel_found start l rb rl m Hlab Hfind).
      split; intros _; exists m; auto.
    + rewrite (findModel_missing start l rb rl Hlab Hfind).
      pose proof (proj1 (find_none_iff l _) Hfind) as Hnone.
      split.
      * intros [n [Hret Hn]]. exists n. split; [|exact Hn].
        assert (n = start) as ->.
        { destruct (subclasses start), rb, rl; simpl in Hret; congruence. }
        apply start_in_preorder.
      * intros [n [Hin Hn]]. rewrite (Hnone n Hin) in Hn. discriminate.
  - intros n Hfind. exact (findModel_found start l rb rl n Hlab Hfind).
Qed.

(** The scenario of C3: the root [M] with the leaves [M1] and [M2], both
    labelled "x", resolves "x" to [M1], which is not [M2]. *)
Lemma findModel_first_in_preorder_witness :
  labelled M = true /\
  findModel M "x" false false = Return M1 /\ M1 <> M2.
Proof.
  split; [reflexivity|]. split; [|discriminate].
  apply (proj2 (findModel_first_in_preorder M "x" false false eq_refl)).
  reflexivity.
Defined.

(** C7: when no class of the subtree of [start] holds the label, [findModel]
    without fallback flags raises [NotFound], and with [returnBase] it returns
    [start]. *)
Theorem findModel_no_match (start : class) (l : string) :
  labelled start = true ->
  (forall n, In n (preorder start) -> has_label l n = false) ->
  findModel start l false false = Raise NotFound /\
  (forall rl, findModel start l true rl = Return start).
Proof.
  intros Hlab Hnone. apply find_none_iff in Hnone.
  split; [|intros rl]; rewrite (findModel_missing start l _ _ Hlab Hnone);
    destruct (subclasses start); reflexivity.
Qed.

Lemma findModel_no_match_witness :
  labelled ModelA = true /\
  findModel ModelA "IDontExist" false false = Raise NotFound /\
  findModel ModelA "D" true false = Return ModelA.
Proof.
  split; [reflexivity|]. split.
  - apply (findModel_no_match ModelA "IDontExist" eq_refl).
    intros n Hn. simpl in Hn.
    repeat (destruct Hn as [<-|Hn]; [reflexivity|]). destruct Hn.
  - apply (findModel_no_match ModelA "D" eq_refl).
    intros n Hn. simpl in Hn.
    repeat (destruct Hn as [<-|Hn]; [reflexivity|]). destruct Hn.
Defined.

(** C2 (as stated, refuted): [ModelA] has a subclass and nothing below it
    holds "D"; with [returnLatest] alone [findModel] raises [NotFound], with
    [returnBase] it returns [ModelA]. *)
Lemma findModel_returnLatest_differs :
  find (has_label "D") (preorder ModelA) = None /\
  subclasses ModelA = [ModelB] /\
  findModel ModelA "D" false true = Raise NotFound /\
  findModel ModelA "D" true false = Return ModelA.
Proof. repeat split. Qed.

(** C2 (amended): when no class of the subtree of [start] holds the label,
    [returnLatest] stands in for [returnBase] only on a [start] without
    subclasses, where either flag makes [findModel] return [start]; on a
    [start] with subclasses [returnBase] makes it return [start] and
    [returnLatest] alone leaves it raising [NotFound]. *)
Theorem findModel_returnLatest_leaf_only (start : class) (l : string) :
  labelled start = true ->
  (forall n, In n (preorder start) -> has_label l n = false) ->
  (subclasses start = [] ->
   findModel start l false true = Return start /\
   findModel start l true false = Return start) /\
  (subclasses start <> [] ->
   findModel start l false true = Raise NotFound /\
   findModel start l true false = Return start).
Proof.
  intros Hlab Hnone. apply find_none_iff in Hnone.
  rewrite !(findModel_missing start l _ _ Hlab Hnone).
  destruct (subclasses start); split; intros H; try congruence;
    split; reflexivity.
Qed.

Lemma findModel_returnLatest_leaf_only_witness :
  (labelled ModelC = true /\ subclasses ModelC = [] /\
   findModel ModelC "NonExistent" false true = Return ModelC /\
   findModel ModelC "NonExistent" true false = Return ModelC) /\
  (labelled ModelA = true /\
   findModel ModelA "NonExistent" false true = Raise NotFound /\
   findModel ModelA "NonExistent" true false = Return ModelA).
Proof.
  split.
  - split; [reflexivity|]. split; [reflexivity|].
    apply (findModel_returnLatest_leaf_only ModelC "NonExistent" eq_refl).
    + intros n Hn. simpl in Hn.
      repeat (destruct Hn as [<-|Hn]; [reflexivity|]). destruct Hn.
    + reflexivity.
  - split; [reflexivity|].
    apply (findModel_returnLatest_leaf_only ModelA "NonExistent" eq_refl).
    + intros n Hn. simpl in Hn.
      repeat (destruct Hn as [<-|Hn]; [reflexivity|]). destruct Hn.
    + discriminate.
Defined.

End ModelBaseProps.

Module VersionedBaseProps.
Import VersionedBase.

Lemma preorder_unfold (c : class) :
  preorder c = c :: flat_map preorder (subclasses c).
Proof. destruct c; reflexivity. Qed.

Lemma last_cons_nonempty {A : Type} (x d d' : A) (l : list A) :
  l <> [] -> last (x :: l) d = last l d'.
Proof.
  revert x. induction l as [|y l IH]; intros x Hl; [congruence|].
  destruct l as [|z l]; [reflexivity|].
  change (last (x :: y :: z :: l) d) with (last (y :: z :: l) d).
  change (last (y :: z :: l) d') with (last (z :: l) d').
  apply IH. discriminate.
Qed.

Lemma preorder_nonempty (c : class) : preorder c <> [].
Proof. rewrite preorder_unfold. discriminate. Qed.

Lemma deepest_only_child (n : string) (v : option string) (next : class) :
  deepest (Class n v [next]) = deepest next.
Proof.
  unfold deepest.
  change (preorder (Class n v [next]))
    with (Class n v [next] :: (preorder next ++ [])).
  rewrite app_nil_r. apply last_cons_nonempty, preorder_nonempty.
Qed.

Section NewFromVersionProps.

Context {Args : Type}.
Variable args : Args.
Variable version : option string.

(** The loop on a lineage that does not hold the version. *)
Lemma scan_loop_absent (rd rl : bool) (cls scan : class) :
  linear scan = true ->
  absent version (preorder scan) ->
  scan_loop args version rd rl cls scan =
  if rd then Return (New cls args)
  else if rl then Return (New (deepest scan) args)
  else Raise NotFound.
Proof.
  induction scan as [n v subs IH] using class_subtree_ind.
  intros Hlin Habs. simpl.
  assert (py_eq v version = false) as ->.
  { apply py_eq_false.
    apply (Habs (Class n v subs)). rewrite preorder_unfold. left. reflexivity. }
  destruct subs as [|next [|other rest]].
  - reflexivity.
  - rewrite deepest_only_child.
    apply (Forall_inv IH).
    + unfold linear in *. simpl in Hlin. rewrite app_nil_r in Hlin. exact Hlin.
    + intros m Hm. apply Habs. simpl. rewrite app_nil_r. right. exact Hm.
  - unfold linear in Hlin. simpl in Hlin. discriminate.
Qed.

(** [newFromVersion] on a start class that forks and does not itself carry
    the version: the flags play no part. *)
Lemma newFromVersion_fork_at_start (rd rl : bool) (cls : class) :
  versionString cls <> version ->
  2 <= List.length (subclasses cls) ->
  newFromVersion cls args version rd rl = Raise AmbiguousHierarchy.
Proof.
  intros Hv Hlen. unfold newFromVersion.
  apply py_eq_false in Hv. rewrite Hv.
  destruct (subclasses cls) as [|a [|b r]]; simpl in Hlen; try lia.
  reflexivity.
Qed.

(** C1 (the code departs from the claim): on a chain whose second class
    forks, [newFromVersion] from the first class for a version held by none
    returns an instance under either fallback flag and raises [NotFound]
    without them; [AmbiguousHierarchy] is not raised. *)
Theorem newFromVersion_fork_below_start :
  List.length (subclasses Fork2) = 2 /\
  newFromVersion Fork1 args (Some "9.9") true false = Return (New Fork1 args) /\
  newFromVersion Fork1 args (Some "9.9") false true = Return (New Fork2 args) /\
  newFromVersion Fork1 args (Some "9.9") false false = Raise NotFound.
Proof. repeat split. Qed.

(** C5: in the lineage "1.0", "2.0", "3.0", asking the first class for
    "2.0" calls the second class on the supplied arguments, whatever the
    fallback flags. *)
Theorem newFromVersion_middle_of_lineage (rd rl : bool) :
  newFromVersion Ver1 args (Some "2.0") rd rl = Return (New Ver2 args).
Proof. reflexivity. Qed.

(** C6: on a lineage that does not hold the version, [newFromVersion]
    raises [NotFound] without fallback flags, calls the start class under
    [returnDefault], and calls the deepest class under [returnLast] alone. *)
Theorem newFromVersion_absent (start : class) :
  linear start = true ->
  absent version (preorder start) ->
  newFromVersion start args version false false = Raise NotFound /\
  (forall rl, newFromVersion start args version true rl
              = Return (New start args)) /\
  newFromVersion start args version false true
  = Return (New (deepest start) args).
Proof.
  intros Hlin Habs.
  assert (forall rd rl,
             newFromVersion start args version rd rl =
             if rd then Return (New start args)
             else if rl then Return (New (deepest start) args)
             else Raise NotFound) as Hgen.
  { intros rd rl. unfold newFromVersion.
    assert (py_eq (versionString start) version = false) as ->.
    { apply py_eq_false. apply Habs. rewrite preorder_unfold. left. reflexivity. }
    destruct start as [n v subs]. simpl.
    destruct subs as [|sub [|other rest]].
    - reflexivity.
    - rewrite deepest_only_child. apply scan_loop_absent.
      + unfold linear in *. simpl in Hlin. rewrite app_nil_r in Hlin.
        exact Hlin.
      + intros m Hm. apply Habs. simpl. rewrite app_nil_r. right. exact Hm.
    - unfold linear in Hlin. simpl in Hlin. discriminate. }
  repeat split; intros; rewrite Hgen; reflexivity.
Qed.

(** C10: with the [version] argument left out, a class whose version string
    is unset matches at once and is the class that gets called. *)
Theorem newFromVersion_version_omitted (rd rl : bool) (cls : class) :
  versionString cls = None ->
  newFromVersion cls args version_default rd rl = Return (New cls args).
Proof.
  intros Hv. unfold newFromVersion, version_default. rewrite Hv. reflexivity.
Qed.

End NewFromVersionProps.

Lemma newFromVersion_absent_witness :
  linear Ver1 = true /\
  newFromVersion Ver1 tt (Some "4.0") false false = Raise NotFound /\
  newFromVersion Ver1 tt (Some "4.0") true true = Return (New Ver1 tt) /\
  newFromVersion Ver1 tt (Some "4.0") false true = Return (New Ver3 tt).
Proof.
  assert (absent (Some "4.0") (preorder Ver1)) as Habs.
  { intros n Hn. simpl in Hn.
    repeat (destruct Hn as [<-|Hn]; [discriminate|]). destruct Hn. }
  destruct (newFromVersion_absent tt (Some "4.0") Ver1 eq_refl Habs)
    as [H0 [H1 H2]].
  split; [reflexivity|]. split; [exact H0|]. split; [exact (H1 true)|exact H2].
Defined.

Lemma newFromVersion_version_omitted_witness :
  versionString Base = None /\
  newFromVersion Base tt version_default false false = Return (New Base tt).
Proof.
  split; [reflexivity|].
  exact (newFromVersion_version_omitted tt false false Base eq_refl).
Defined.

Lemma first_child_path_head (c : class) :
  first_child_path c =
  c :: match subclasses c with
       | sub :: _ => first_child_path sub
       | [] => []
       end.
Proof. destruct c; reflexivity. Qed.

Lemma first_child_path_nonempty (c : class) : first_child_path c <> [].
Proof. rewrite first_child_path_head. discriminate. Qed.

Lemma last_in {A : Type} (l : list A) (d : A) : l <> [] -> In (last l d) l.
Proof.
  induction l as [|x l IH]; [congruence|]. intros _.
  destruct l as [|y l]; [left; reflexivity|].
  right. apply IH. discriminate.
Qed.

Lemma last_reached_on_path (c : class) :
  In (last_reached c) (first_child_path c).
Proof. apply last_in, first_child_path_nonempty. Qed.

Lemma last_reached_first_child (n : string) (v : option string)
  (sub : class) (rest : list class) :
  last_reached (Class n v (sub :: rest)) = last_reached sub.
Proof.
  unfold last_reached.
  change (first_child_path (Class n v (sub :: rest)))
    with (Class n v (sub :: rest) :: first_child_path sub).
  apply last_cons_nonempty, first_child_path_nonempty.
Qed.

Lemma first_child_path_in_preorder (c m : class) :
  In m (first_child_path c) -> In m (preorder c).
Proof.
  induction c as [n v subs IH] using class_subtree_ind.
  simpl. intros [Hm|Hm]; [left; exact Hm|right].
  destruct subs as [|sub rest]; [destruct Hm|].
  simpl. apply in_or_app. left. exact (Forall_inv IH Hm).
Qed.

(** The walk of [traverse] when no class on the first-subclass path carries
    the version. *)
Lemma traverse_absent (rl : bool) (c : class) (version : option string) :
  absent version (first_child_path c) ->
  traverse rl c version = if rl then Some (last_reached c) else None.
Proof.
  induction c as [n v subs IH] using class_subtree_ind.
  intros Habs. simpl.
  assert (py_eq version v = false) as ->.
  { rewrite py_eq_sym. apply py_eq_false.
    apply (Habs (Class n v subs)). left. reflexivity. }
  destruct subs as [|sub rest]; [reflexivity|].
  rewrite last_reached_first_child. apply (Forall_inv IH).
  intros m Hm. apply Habs. right. exact Hm.
Qed.

Lemma findVersion_absent (start : class) (version : option string)
  (rb rl : bool) :
  absent version (first_child_path start) ->
  findVersion start version rb rl =
  if rl then Return (last_reached start)
  else if rb then Return start
  else Raise NotFound.
Proof.
  intros Habs. unfold findVersion.
  assert (py_eq version (versionString start) = false) as ->.
  { rewrite py_eq_sym. apply py_eq_false. apply Habs.
    rewrite first_child_path_head. left. reflexivity. }
  rewrite (traverse_absent rl start version Habs).
  destruct start as [n v [|sub rest]]; simpl; destruct rl, rb; reflexivity.
Qed.

(** C4: when the version is carried by a class of the tree but by no class on
    the first-subclass path from [start], [findVersion] does not return that
    class: it raises [NotFound] or falls back to [start] or to the end of the
    path. *)
Theorem findVersion_first_child_only
  (start target : class) (version : option string) (rb rl : bool) :
  In target (preorder start) ->
  versionString target = version ->
  absent version (first_child_path start) ->
  findVersion start version rb rl <> Return target /\
  (findVersion start version rb rl = Raise NotFound \/
   findVersion start version rb rl = Return start \/
   findVersion start version rb rl = Return (last_reached start)).
Proof.
  intros _ Htarget Habs. rewrite (findVersion_absent start version rb rl Habs).
  split.
  - destruct rl; [|destruct rb]; intros H; inversion H as [Heq].
    + apply (Habs _ (last_reached_on_path start)). congruence.
    + apply (Habs start); [|congruence].
      rewrite first_child_path_head. left. reflexivity.
  - destruct rl; [|destruct rb]; auto.
Qed.

Lemma findVersion_first_child_only_witness :
  In Deep3 (preorder Top1) /\
  versionString Deep3 = Some "3.0" /\
  first_child_path Top1 = [Top1; Leaf2a] /\
  findVersion Top1 (Some "3.0") false false <> Return Deep3 /\
  findVersion Top1 (Some "3.0") false false = Raise NotFound.
Proof.
  assert (In Deep3 (preorder Top1)) as Hin.
  { simpl. right. right. right. left. reflexivity. }
  assert (absent (Some "3.0") (first_child_path Top1)) as Habs.
  { intros n Hn. simpl in Hn.
    repeat (destruct Hn as [<-|Hn]; [discriminate|]). destruct Hn. }
  split; [exact Hin|]. split; [reflexivity|]. split; [reflexivity|].
  split; [|reflexivity].
  exact (proj1 (findVersion_first_child_only
                  Top1 Deep3 (Some "3.0") false false Hin eq_refl Habs)).
Defined.

(** C8: when no class on the first-subclass path from [start] carries the
    version, [findVersion] returns the end of that path under [returnLatest],
    else [start] under [returnBase], else raises [NotFound]; on a [start]
    without subclasses either flag makes it return [start]. *)
Theorem findVersion_exhausted (start : class) (version : option string) :
  absent version (first_child_path start) ->
  (forall rb, findVersion start version rb true = Return (last_reached start)) /\
  findVersion start version true false = Return start /\
  findVersion start version false false = Raise NotFound /\
  (subclasses start = [] ->
   forall rb rl, rb || rl = true ->
                 findVersion start version rb rl = Return start).
Proof.
  intros Habs. repeat split; intros;
    rewrite (findVersion_absent start version _ _ Habs); try reflexivity.
  destruct start as [n v subs]. simpl in *. subst subs.
  destruct rb, rl; try reflexivity. discriminate.
Qed.

(** In [Top1] the path ends at the leaf [Leaf2a], although [Deep3] lies
    deeper in the tree. *)
Lemma findVersion_exhausted_witness :
  first_child_path Top1 = [Top1; Leaf2a] /\
  In Deep3 (preorder Top1) /\
  findVersion Top1 (Some "9.9") false true = Return Leaf2a /\
  findVersion Top1 (Some "9.9") true true = Return Leaf2a /\
  findVersion Top1 (Some "9.9") true false = Return Top1 /\
  findVersion Top1 (Some "9.9") false false = Raise NotFound /\
  findVersion Ver3 (Some "4.0") false true = Return Ver3.
Proof.
  assert (absent (Some "9.9") (first_child_path Top1)) as Habs.
  { intros n Hn. simpl in Hn.
    repeat (destruct Hn as [<-|Hn]; [discriminate|]). destruct Hn. }
  assert (absent (Some "4.0") (first_child_path Ver3)) as Habs3.
  { intros n Hn. simpl in Hn.
    repeat (destruct Hn as [<-|Hn]; [discriminate|]). destruct Hn. }
  destruct (findVersion_exhausted Top1 (Some "9.9") Habs) as [H1 [H2 [H3 _]]].
  destruct (findVersion_exhausted Ver3 (Some "4.0") Habs3) as [_ [_ [_ H4]]].
  split; [reflexivity|].
  split; [simpl; right; right; right; left; reflexivity|].
  split; [exact (H1 false)|]. split; [exact (H1 true)|].
  split; [exact H2|]. split; [exact H3|].
  exact (H4 eq_refl false true eq_refl).
Defined.

Lemma climb_find (base : class) (above : list class) (sought : option string) :
  climb base above sought =
  find (fun a => py_eq (versionString a) sought) (base :: above).
Proof.
  revert base. induction above as [|parent above IH]; intros base; simpl.
  - reflexivity.
  - destruct (py_eq (versionString base) sought); [reflexivity|].
    rewrite IH. reflexivity.
Qed.

(** C9: [findPreviousVersion] returns, without raising, the nearest class
    above [cls] whose version string equals the sought one, and nothing when
    no class above [cls] carries it. *)
Theorem findPreviousVersion_climbs (cls : declared) (sought : option string) :
  findPreviousVersion cls sought =
  Return (find (fun a => py_eq (versionString a) sought) (bases cls)) /\
  (absent sought (bases cls) -> findPreviousVersion cls sought = Return None).
Proof.
  assert (findPreviousVersion cls sought =
          Return (find (fun a => py_eq (versionString a) sought) (bases cls)))
    as Hfind.
  { unfold findPreviousVersion. destruct (bases cls) as [|base above].
    - reflexivity.
    - rewrite climb_find. reflexivity. }
  split; [exact Hfind|].
  intros Habs. rewrite Hfind. f_equal.
  destruct (find _ (bases cls)) as [a|] eqn:E; [|reflexivity].
  apply find_some in E. destruct E as [Hin Hv].
  apply py_eq_true in Hv. destruct (Habs a Hin Hv).
Qed.

(** In the lineage of [Ver3], asking for "2.0" climbs to [Ver2], and asking
    for "4.0" yields nothing. *)
Lemma findPreviousVersion_climbs_witness :
  bases dVer3 = [Ver2; Ver1; Base] /\
  findPreviousVersion dVer3 (Some "2.0") = Return (Some Ver2) /\
  findPreviousVersion dVer3 (Some "4.0") = Return None.
Proof.
  split; [reflexivity|]. split.
  - rewrite (proj1 (findPreviousVersion_climbs dVer3 (Some "2.0"))).
    reflexivity.
  - apply (proj2 (findPreviousVersion_climbs dVer3 (Some "4.0"))).
    intros n Hn. simpl in Hn.
    repeat (destruct Hn as [<-|Hn]; [discriminate|]). destruct Hn.
Defined.

End VersionedBaseProps.


(** * Further properties of [modelBase.py] *)

Module ModelBaseExtra.
Import ModelBase ModelBaseProps.

Lemma find_over_app {A : Type} (f : A -> bool) (xs ys : list A) :
  find f (xs ++ ys) =
  match find f xs with
  | Some x => Some x
  | None => find f ys
  end.
Proof.
  induction xs as [|x xs IH]; simpl; [reflexivity|].
  destruct (f x); [reflexivity|exact IH].
Qed.

Lemma first_hit_some (l : string) (cs : list class) (n : class) :
  first_hit l cs = Return (Some n) -> In n cs /\ has_label l n = true.
Proof.
  induction cs as [|c cs IH]; simpl; [discriminate|].
  unfold has_label at 1.
  destruct (modelStrings c) as [strings|] eqn:E; simpl; [|discriminate].
  destruct (existsb (String.eqb l) strings) eqn:Ex.
  - intros H. inversion H. subst n. split; [left; reflexivity|].
    unfold has_label. rewrite E. exact Ex.
  - intros H. destruct (IH H) as [Hin Hn]. split; [right; exact Hin|exact Hn].
Qed.

Lemma first_hit_raise (l : string) (cs : list class) (e : exn) :
  first_hit l cs = Raise e -> e = TypeError.
Proof.
  induction cs as [|c cs IH]; simpl; [discriminate|].
  destruct (modelStrings c) as [strings|]; simpl; [|congruence].
  destruct (existsb (String.eqb l) strings); [discriminate|exact IH].
Qed.

(** The scan raises exactly when it meets a class without model strings
    before any class that holds the label. *)
Lemma first_hit_raise_iff (l : string) (cs : list class) :
  first_hit l cs = Raise TypeError <->
  exists xs c ys,
    cs = xs ++ c :: ys /\ modelStrings c = None /\
    (forall n, In n xs -> has_label l n = false).
Proof.
  split.
  - induction cs as [|c cs IH]; simpl; [discriminate|].
    destruct (modelStrings c) as [strings|] eqn:E; simpl.
    + destruct (existsb (String.eqb l) strings) eqn:Ex; [discriminate|].
      intros H. destruct (IH H) as [xs [c' [ys [Hcs [Hc' Hxs]]]]].
      exists (c :: xs), c', ys. split; [rewrite Hcs; reflexivity|].
      split; [exact Hc'|].
      intros n [<-|Hn]; [|exact (Hxs n Hn)].
      unfold has_label. rewrite E. exact Ex.
    + intros _. exists [], c, cs. split; [reflexivity|].
      split; [exact E|]. intros n [].
  - intros [xs [c [ys [Hcs [Hc Hxs]]]]]. subst cs.
    induction xs as [|x xs IH]; simpl.
    + rewrite Hc. reflexivity.
    + pose proof (Hxs x (or_introl eq_refl)) as Hx. unfold has_label in Hx.
      destruct (modelStrings x) as [strings|]; simpl; [|reflexivity].
      rewrite Hx. apply IH. intros n Hn. apply Hxs. right. exact Hn.
Qed.

(** [findModel] in terms of the scan of the pre-order listing, without any
    assumption on the hierarchy. *)
Lemma findModel_scan (start : class) (l : string) (rb rl : bool) :
  findModel start l rb rl =
  (r <- first_hit l (preorder start) ;;
   match r with
   | Some found => Return found
   | None =>
       match subclasses start with
       | _ :: _ => if rb then Return start else Raise NotFound
       | [] => if rb || rl then Return start else Raise NotFound
       end
   end).
Proof.
  unfold findModel. rewrite traverse_preorder.
  destruct start as [n strings subs]. simpl.
  destruct (contains l strings) as [[|]|e]; simpl; try reflexivity.
  destruct subs as [|sub rest]; reflexivity.
Qed.

(** X1: whatever the flags and whatever the hierarchy, a class that
    [findModel] returns belongs to the subtree of [start]. *)
Theorem findModel_in_subtree
  (start : class) (l : string) (rb rl : bool) (n : class) :
  findModel start l rb rl = Return n -> In n (preorder start).
Proof.
  rewrite findModel_scan.
  destruct (first_hit l (preorder start)) as [[m|]|e] eqn:E; simpl.
  - intros H. inversion H. subst m. exact (proj1 (first_hit_some l _ n E)).
  - intros H. assert (n = start) as ->; [|apply start_in_preorder].
    destruct (subclasses start), rb, rl; simpl in H; congruence.
  - discriminate.
Qed.

Lemma findModel_in_subtree_witness :
  findModel Wide "k" false false = Return Deep /\ In Deep (preorder Wide).
Proof.
  split; [reflexivity|].
  exact (findModel_in_subtree Wide "k" false false Deep eq_refl).
Defined.

(** X2: [findModel] raises [TypeError] exactly when the pre-order listing of
    the subtree reaches a class without model strings before any class that
    holds the label; the flags play no part. *)
Theorem findModel_TypeError_iff (start : class) (l : string) (rb rl : bool) :
  findModel start l rb rl = Raise TypeError <->
  exists xs c ys,
    preorder start = xs ++ c :: ys /\ modelStrings c = None /\
    (forall n, In n xs -> has_label l n = false).
Proof.
  rewrite <- first_hit_raise_iff, findModel_scan.
  destruct (first_hit l (preorder start)) as [[m|]|e] eqn:E; simpl.
  - split; discriminate.
  - split; [|discriminate].
    destruct (subclasses start), rb, rl; simpl; discriminate.
  - rewrite (first_hit_raise l _ e E). tauto.
Qed.

(** X3: a class returned without fallback flags holds the label, and the
    same class is returned under every setting of the flags. *)
Theorem findModel_flags_keep_match (start : class) (l : string) (n : class) :
  findModel start l false false = Return n ->
  has_label l n = true /\
  (forall rb rl, findModel start l rb rl = Return n).
Proof.
  rewrite findModel_scan.
  destruct (first_hit l (preorder start)) as [[m|]|e] eqn:E; simpl.
  - intros H. inversion H. subst m.
    split; [exact (proj2 (first_hit_some l _ n E))|].
    intros rb rl. rewrite findModel_scan, E. reflexivity.
  - destruct (subclasses start); discriminate.
  - discriminate.
Qed.

Lemma findModel_flags_keep_match_witness :
  has_label "c" ModelC = true /\
  findModel ModelA "c" true true = Return ModelC.
Proof.
  destruct (findModel_flags_keep_match ModelA "c" ModelC eq_refl) as [H1 H2].
  split; [exact H1|exact (H2 true true)].
Defined.

(** X4: under [returnBase] the only way [findModel] fails is the
    [TypeError] of a class without model strings. *)
Theorem findModel_returnBase_failure
  (start : class) (l : string) (rl : bool) (e : exn) :
  findModel start l true rl = Raise e ->
  e = TypeError /\ labelled start = false.
Proof.
  rewrite findModel_scan.
  destruct (first_hit l (preorder start)) as [[m|]|e'] eqn:E; simpl.
  - discriminate.
  - destruct (subclasses start); discriminate.
  - intros H. inversion H. subst e'. split; [exact (first_hit_raise l _ e E)|].
    destruct (labelled start) eqn:Hlab; [|reflexivity].
    unfold labelled in Hlab.
    rewrite (first_hit_labelled l _ Hlab) in E. discriminate.
Qed.

Lemma findModel_returnBase_failure_witness :
  findModel Mixed "x" true false = Raise TypeError /\ labelled Mixed = false.
Proof.
  split; [reflexivity|].
  exact (proj2 (findModel_returnBase_failure Mixed "x" false TypeError eq_refl)).
Defined.

(** X5: when exactly one class of a labelled subtree holds the label,
    [findModel] returns that class under every setting of the flags. *)
Theorem findModel_unique_label
  (start : class) (l : string) (rb rl : bool) (n : class) :
  labelled start = true ->
  In n (preorder start) ->
  has_label l n = true ->
  (forall m, In m (preorder start) -> has_label l m = true -> m = n) ->
  findModel start l rb rl = Return n.
Proof.
  intros Hlab Hin Hn Huniq.
  destruct (find (has_label l) (preorder start)) as [m|] eqn:Hfind.
  - destruct (find_some _ _ Hfind) as [Hm1 Hm2].
    rewrite <- (Huniq m Hm1 Hm2).
    exact (findModel_found start l rb rl m Hlab Hfind).
  - rewrite (proj1 (find_none_iff l _) Hfind n Hin) in Hn. discriminate.
Qed.

Lemma findModel_unique_label_witness :
  findModel ModelA "C" false false = Return ModelC.
Proof.
  apply (findModel_unique_label ModelA "C" false false ModelC eq_refl).
  - simpl. right. right. left. reflexivity.
  - reflexivity.
  - intros m Hm. simpl in Hm.
    destruct Hm as [<-|[<-|[<-|[]]]]; intros H; try discriminate H.
    reflexivity.
Defined.

(** X6: the search is depth first.  When [start] does not hold the label and
    no subtree of the subclasses before [sub] holds it, the first class
    holding it in the subtree of [sub] is returned, whatever the subclasses
    after [sub] hold. *)
Theorem findModel_depth_first
  (start sub : class) (before after : list class) (l : string)
  (rb rl : bool) (n : class) :
  labelled start = true ->
  has_label l start = false ->
  subclasses start = before ++ sub :: after ->
  (forall m, In m (flat_map preorder before) -> has_label l m = false) ->
  find (has_label l) (preorder sub) = Some n ->
  findModel start l rb rl = Return n.
Proof.
  intros Hlab Hstart Hsubs Hbefore Hsub.
  apply (findModel_found start l rb rl n Hlab).
  rewrite preorder_head, Hsubs. simpl. rewrite Hstart.
  rewrite flat_map_app, find_over_app.
  rewrite (proj2 (find_none_iff l _) Hbefore).
  simpl. rewrite find_over_app, Hsub. reflexivity.
Qed.

Lemma findModel_depth_first_witness :
  has_label "k" Right = true /\
  findModel Wide "k" false false = Return Deep.
Proof.
  split; [reflexivity|].
  apply (findModel_depth_first Wide Left [] [Right] "k" false false Deep);
    try reflexivity.
  intros m [].
Defined.

End ModelBaseExtra.


(** * Further properties of [versionedBase.py] *)

Module VersionedBaseExtra.
Import VersionedBase VersionedBaseProps.

Lemma find_same_test {A : Type} (f g : A -> bool) (l : list A) :
  (forall x, f x = g x) -> find f l = find g l.
Proof.
  intros Hfg. induction l as [|x l IH]; simpl; [reflexivity|].
  rewrite Hfg, IH. reflexivity.
Qed.

Lemma only_child_path_head (c : class) :
  only_child_path c =
  c :: match subclasses c with
       | [next] => only_child_path next
       | _ => []
       end.
Proof. destruct c; reflexivity. Qed.

Lemma only_child_path_nonempty (c : class) : only_child_path c <> [].
Proof. rewrite only_child_path_head. discriminate. Qed.

Lemma last_only_child (n : string) (v : option string) (next : class) :
  last (only_child_path (Class n v [next])) (Class n v [next]) =
  last (only_child_path next) next.
Proof.
  change (only_child_path (Class n v [next]))
    with (Class n v [next] :: only_child_path next).
  apply last_cons_nonempty, only_child_path_nonempty.
Qed.

(** On a lineage the three listings coincide. *)
Lemma linear_paths (c : class) :
  linear c = true ->
  only_child_path c = preorder c /\ first_child_path c = preorder c.
Proof.
  induction c as [n v subs IH] using class_subtree_ind.
  unfold linear. intros Hlin. simpl in Hlin.
  destruct subs as [|next [|other rest]]; simpl in *.
  - split; reflexivity.
  - rewrite app_nil_r in *.
    destruct (Forall_inv IH Hlin) as [H1 H2]. rewrite H1, H2.
    split; reflexivity.
  - discriminate.
Qed.

Section Walk.

Context {Args : Type}.
Variable args : Args.
Variable version : option string.

(** The loop in terms of the only-subclass path. *)
Lemma scan_loop_scan (rd rl : bool) (cls scan : class) :
  scan_loop args version rd rl cls scan =
  match find (carries version) (only_child_path scan) with
  | Some n => Return (New n args)
  | None =>
      if rd then Return (New cls args)
      else if rl then
             Return (New (last (only_child_path scan) scan) args)
           else Raise NotFound
  end.
Proof.
  induction scan as [n v subs IH] using class_subtree_ind.
  destruct subs as [|next [|other rest]].
  - simpl. unfold carries. simpl. destruct (py_eq v version); reflexivity.
  - rewrite last_only_child.
    change (only_child_path (Class n v [next]))
      with (Class n v [next] :: only_child_path next).
    cbn [scan_loop find]. unfold carries at 1. cbn [versionString].
    destruct (py_eq v version); [reflexivity|].
    exact (Forall_inv IH).
  - simpl. unfold carries. simpl. destruct (py_eq v version); reflexivity.
Qed.

(** [newFromVersion] in terms of the only-subclass path. *)
Lemma newFromVersion_scan (start : class) (rd rl : bool) :
  newFromVersion start args version rd rl =
  match find (carries version) (only_child_path start) with
  | Some n => Return (New n args)
  | None =>
      match subclasses start with
      | _ :: _ :: _ => Raise AmbiguousHierarchy
      | _ =>
          if rd then Return (New start args)
          else if rl then
                 Return (New (last (only_child_path start) start) args)
               else Raise NotFound
      end
  end.
Proof.
  unfold newFromVersion. destruct start as [n v [|next [|other rest]]].
  - simpl. unfold carries. simpl.
    destruct (py_eq v version), rd, rl; reflexivity.
  - rewrite last_only_child.
    change (only_child_path (Class n v [next]))
      with (Class n v [next] :: only_child_path next).
    cbn [find subclasses versionString]. unfold carries at 1.
    cbn [versionString].
    destruct (py_eq v version); [reflexivity|].
    rewrite scan_loop_scan.
    destruct (find (carries version) (only_child_path next)); reflexivity.
  - simpl. unfold carries. simpl. destruct (py_eq v version); reflexivity.
Qed.

End Walk.

Lemma carries_true (version : option string) (n : class) :
  carries version n = true <-> versionString n = version.
Proof. unfold carries. apply py_eq_true. Qed.

Lemma find_carries_none (version : option string) (cs : list class) :
  find (carries version) cs = None -> absent version cs.
Proof.
  intros H n Hn Hv. apply carries_true in Hv.
  rewrite (find_none _ _ H n Hn) in Hv. discriminate.
Qed.

Lemma find_present {A : Type} (f : A -> bool) (l : list A) (x : A) :
  In x l -> f x = true -> exists y, find f l = Some y /\ f y = true.
Proof.
  intros Hin Hx. destruct (find f l) as [y|] eqn:E.
  - exists y. split; [reflexivity|exact (proj2 (find_some _ _ E))].
  - rewrite (find_none _ _ E x Hin) in Hx. discriminate.
Qed.

(** The walk of [traverse] in terms of the first-subclass path. *)
Lemma traverse_scan (rl : bool) (c : class) (version : option string) :
  traverse rl c version =
  match find (carries version) (first_child_path c) with
  | Some n => Some n
  | None => if rl then Some (last_reached c) else None
  end.
Proof.
  induction c as [n v subs IH] using class_subtree_ind.
  destruct subs as [|sub rest].
  - simpl. unfold carries. simpl. rewrite (py_eq_sym version v).
    destruct (py_eq v version); reflexivity.
  - rewrite last_reached_first_child.
    change (first_child_path (Class n v (sub :: rest)))
      with (Class n v (sub :: rest) :: first_child_path sub).
    cbn [traverse find]. unfold carries at 1. cbn [versionString].
    rewrite (py_eq_sym version v).
    destruct (py_eq v version); [reflexivity|].
    exact (Forall_inv IH).
Qed.

(** [findVersion] in terms of the first-subclass path. *)
Lemma findVersion_scan (start : class) (version : option string)
  (rb rl : bool) :
  findVersion start version rb rl =
  match find (carries version) (first_child_path start) with
  | Some n => Return n
  | None =>
      if rl then Return (last_reached start)
      else if rb then Return start
      else Raise NotFound
  end.
Proof.
  unfold findVersion. rewrite traverse_scan.
  destruct start as [n v [|sub rest]].
  - simpl. unfold carries. simpl. rewrite (py_eq_sym version v).
    destruct (py_eq v version), rb, rl; reflexivity.
  - change (first_child_path (Class n v (sub :: rest)))
      with (Class n v (sub :: rest) :: first_child_path sub).
    cbn [find subclasses versionString]. unfold carries at 1 3.
    cbn [versionString]. rewrite (py_eq_sym version v).
    destruct (py_eq v version); [reflexivity|].
    destruct (find (carries version) (first_child_path sub)); [reflexivity|].
    destruct rl, rb; reflexivity.
Qed.

Section WalkProps.

Context {Args : Type}.
Variable args : Args.
Variable version : option string.

(** X7: when a class on the only-subclass path from [start] carries the
    version, [newFromVersion] calls the first such class on the supplied
    arguments, whatever the flags and whatever forks the tree has. *)
Theorem newFromVersion_found (start n : class) (rd rl : bool) :
  find (carries version) (only_child_path start) = Some n ->
  newFromVersion start args version rd rl = Return (New n args).
Proof. intros H. rewrite newFromVersion_scan, H. reflexivity. Qed.



(** X10: an instance returned without fallback flags was built from a class
    that carries the version, and the same instance is returned under every
    setting of the flags. *)
Theorem newFromVersion_flags_keep_match
  (start : class) (i : instance Args) :
  newFromVersion start args version false false = Return i ->
  (exists n, i = New n args /\ versionString n = version) /\
  (forall rd rl, newFromVersion start args version rd rl = Return i).
Proof.
  rewrite newFromVersion_scan.
  destruct (find (carries version) (only_child_path start)) as [n|] eqn:E.
  - intros H. inversion H. subst i. split.
    + exists n. split; [reflexivity|].
      apply carries_true. exact (proj2 (find_some _ _ E)).
    + intros rd rl. rewrite newFromVersion_scan, E. reflexivity.
  - destruct (subclasses start) as [|sub [|other rest]]; discriminate.
Qed.

(** X11: on a lineage, and unless both flags are set, [newFromVersion] calls
    exactly the class that [findVersion] returns for the same version and
    flags, and fails exactly as [findVersion] does. *)
Theorem newFromVersion_agrees_with_findVersion
  (start : class) (rb rl : bool) :
  linear start = true ->
  rb && rl = false ->
  newFromVersion start args version rb rl =
  (c <- findVersion start version rb rl ;; Return (New c args)).
Proof.
  intros Hlin Hflags. destruct (linear_paths start Hlin) as [Ho Hf].
  rewrite newFromVersion_scan, findVersion_scan. unfold last_reached.
  rewrite Ho, Hf.
  destruct (find (carries version) (preorder start)); [reflexivity|].
  destruct start as [n v [|a [|b r]]].
  - destruct rb, rl; try discriminate; reflexivity.
  - destruct rb, rl; try discriminate; reflexivity.
  - unfold linear in Hlin. simpl in Hlin. discriminate.
Qed.

(** X12: on a lineage every version carried somewhere below [start] is
    resolved: [findVersion] returns, and [newFromVersion] calls, a class that
    carries it, whatever the flags. *)
Theorem lineage_version_is_found (start n : class) (rb rl : bool) :
  linear start = true ->
  In n (preorder start) ->
  versionString n = version ->
  exists m,
    versionString m = version /\
    findVersion start version rb rl = Return m /\
    newFromVersion start args version rb rl = Return (New m args).
Proof.
  intros Hlin Hin Hv. destruct (linear_paths start Hlin) as [Ho Hf].
  apply carries_true in Hv.
  destruct (find_present (carries version) _ n Hin Hv) as [m [Hfind Hm]].
  exists m. split; [apply carries_true; exact Hm|].
  rewrite findVersion_scan, newFromVersion_scan, Ho, Hf, Hfind.
  split; reflexivity.
Qed.

End WalkProps.

Lemma newFromVersion_found_witness :
  List.length (subclasses Fork2) = 2 /\
  newFromVersion Fork1 tt (Some "2.0") false false = Return (New Fork2 tt).
Proof.
  split; [reflexivity|].
  exact (newFromVersion_found tt (Some "2.0") Fork1 Fork2 false false eq_refl).
Defined.

Lemma newFromVersion_flags_keep_match_witness :
  newFromVersion Ver1 tt (Some "3.0") true true = Return (New Ver3 tt).
Proof.
  exact (proj2 (newFromVersion_flags_keep_match
                  tt (Some "3.0") Ver1 (New Ver3 tt) eq_refl) true true).
Defined.

Lemma newFromVersion_agrees_with_findVersion_witness :
  linear Ver1 = true /\
  newFromVersion Ver1 tt (Some "4.0") false true = Return (New Ver3 tt) /\
  findVersion Ver1 (Some "4.0") false true = Return Ver3.
Proof.
  split; [reflexivity|]. split; [|reflexivity].
  rewrite (newFromVersion_agrees_with_findVersion
             tt (Some "4.0") Ver1 false true eq_refl eq_refl).
  reflexivity.
Defined.

Lemma lineage_version_is_found_witness :
  exists m,
    versionString m = Some "3.0" /\
    findVersion Base (Some "3.0") false false = Return m /\
    newFromVersion Base tt (Some "3.0") false false = Return (New m tt).
Proof.
  apply (lineage_version_is_found tt (Some "3.0") Base Ver3 false false).
  - reflexivity.
  - simpl. right. right. right. left. reflexivity.
  - reflexivity.
Defined.

(** X13: when a class on the first-subclass path from [start] carries the
    version, [findVersion] returns the first such class, whatever the
    flags. *)
Theorem findVersion_found
  (start n : class) (version : option string) (rb rl : bool) :
  find (carries version) (first_child_path start) = Some n ->
  findVersion start version rb rl = Return n.
Proof. intros H. rewrite findVersion_scan, H. reflexivity. Qed.

Lemma findVersion_found_witness :
  findVersion Ver1 (Some "3.0") false false = Return Ver3.
Proof.
  exact (findVersion_found Ver1 Ver3 (Some "3.0") false false eq_refl).
Defined.

(** X14: a class that [findVersion] returns lies on the first-subclass path
    from [start]; [findVersion] fails only with [NotFound], only when both
    flags are off, and only when no class on that path carries the
    version. *)
Theorem findVersion_result
  (start : class) (version : option string) (rb rl : bool) :
  match findVersion start version rb rl with
  | Return n => In n (first_child_path start)
  | Raise e =>
      e = NotFound /\ rb = false /\ rl = false /\
      absent version (first_child_path start)
  end.
Proof.
  rewrite findVersion_scan.
  destruct (find (carries version) (first_child_path start)) as [n|] eqn:E.
  - exact (proj1 (find_some _ _ E)).
  - destruct rl; [apply last_reached_on_path|].
    destruct rb.
    + rewrite first_child_path_head. left. reflexivity.
    + repeat split. exact (find_carries_none _ _ E).
Qed.

(** X15: a class returned without fallback flags carries the version, and
    the same class is returned under every setting of the flags. *)
Theorem findVersion_flags_keep_match
  (start n : class) (version : option string) :
  findVersion start version false false = Return n ->
  versionString n = version /\
  (forall rb rl, findVersion start version rb rl = Return n).
Proof.
  rewrite findVersion_scan.
  destruct (find (carries version) (first_child_path start)) as [m|] eqn:E;
    [|discriminate].
  intros H. inversion H. subst m. split.
  - apply carries_true. exact (proj2 (find_some _ _ E)).
  - intros rb rl. rewrite findVersion_scan, E. reflexivity.
Qed.

Lemma findVersion_flags_keep_match_witness :
  versionString Ver2 = Some "2.0" /\
  findVersion Ver1 (Some "2.0") true true = Return Ver2.
Proof.
  destruct (findVersion_flags_keep_match Ver1 Ver2 (Some "2.0") eq_refl)
    as [H1 H2].
  split; [exact H1|exact (H2 true true)].
Defined.



End VersionedBaseExtra.
